(** * The closure registry and the signal connector of go-glib

    A shallow embedding of [core/closure/closure.go] (the per-object closure
    registry) and of the signal-connection file of package [glib]
    ([Connect], [ConnectAfter], [connectClosure], [ClosureNew],
    [removeClosure]), with the properties its specification states. *)

From stdpp Require Import gmap list strings.
From Stdlib Require Import NArith.

Open Scope string_scope.

(** ** Go values that reach the registry *)

(** An [unsafe.Pointer] (the address of a [C.GClosure] or [C.GObject]) and a
    [SignalHandle] ([uint]) are plain unsigned numbers. *)
Abbreviation Pointer := N (only parsing).
Abbreviation SignalHandle := N (only parsing).

(** A [reflect.Type] is identified by its name. *)
Abbreviation GoType := string (only parsing).

(** The [reflect.Value] of a Go func: the list that [Type().In(k)] reads and
    the identity of the code it runs. *)
Record FuncValue : Type := mkFuncValue {
  In_ : list GoType;
  fn_id : N
}.

Definition NumIn (f : FuncValue) : nat := length (In_ f).

(** Modelled from the spec: [closure.FuncStack] is declared in a file of
    package [closure] that is not at hand.  The spec describes the callable
    wrapper as the underlying callable value together with a diagnostic label
    taken at a capture depth; the connector reads its field [Func]. *)
Record FuncStack : Type := mkFuncStack {
  Func : FuncValue;
  Frames : nat
}.

(** A pointer to a [FuncStack]: [None] is the nil pointer. *)
Abbreviation PFuncStack := (option FuncStack) (only parsing).

(** The dynamic values ([interface{}]) that a caller hands to [Connect] or
    [ClosureNew]: a func, a pointer to a [closure.FuncStack], or a value of
    any other type. *)
Inductive GoValue : Type :=
| VFunc (fn : FuncValue)
| VFuncStack (fs : PFuncStack)
| VOther (ty : GoType).

(** A Go call either returns or panics with a message. *)
Inductive outcome (A : Type) : Type :=
| Ok (a : A)
| Panic (msg : string).
Arguments Ok {A} a.
Arguments Panic {A} msg.

(** ** core/closure/closure.go *)

Module closure.

(** [type Registry struct { reg sync.Map }], a map from
    the address of a [C.GClosure] to a pointer to a [FuncStack]. *)
Record Registry : Type := mkRegistry {
  reg : gmap N (option FuncStack)
}.

(** [NewRegistry] creates an empty closure registry. *)
Definition NewRegistry : Registry := mkRegistry ∅.

(** [r.reg.Store(gclosure, callback)] *)
Definition Register (r : Registry) (gclosure : Pointer) (callback : PFuncStack)
  : Registry :=
  mkRegistry (<[gclosure := callback]> (reg r)).

(** [fs, ok := r.reg.Load(gclosure)]; nil when [!ok], else [fs] asserted to
    be a pointer to a [FuncStack]. *)
Definition Load (r : Registry) (gclosure : Pointer) : PFuncStack :=
  match reg r !! gclosure with
  | None => None
  | Some fs => fs
  end.

(** [r.reg.Delete(gclosure)] *)
Definition Delete (r : Registry) (gclosure : Pointer) : Registry :=
  mkRegistry (delete gclosure (reg r)).

(** An identity is live in a registry when the map holds a key for it. *)
Definition live (r : Registry) (gclosure : Pointer) : bool :=
  bool_decide (is_Some (reg r !! gclosure)).

(** One call on a registry, for histories of calls. *)
Inductive RegOp : Type :=
| OpRegister (gclosure : Pointer) (callback : PFuncStack)
| OpLoad (gclosure : Pointer)
| OpDelete (gclosure : Pointer).

Definition run_op (r : Registry) (op : RegOp) : Registry :=
  match op with
  | OpRegister g cb => Register r g cb
  | OpLoad _ => r
  | OpDelete g => Delete r g
  end.

Definition run_ops (ops : list RegOp) (r : Registry) : Registry :=
  fold_left run_op ops r.

(** Whether a call is a [Register] or a [Delete] of the identity [i]. *)
Definition writes (i : Pointer) (op : RegOp) : bool :=
  match op with
  | OpRegister g _ => N.eqb g i
  | OpLoad _ => false
  | OpDelete g => N.eqb g i
  end.

Definition leaves (i : Pointer) (ops : list RegOp) : bool :=
  forallb (fun op => negb (writes i op)) ops.

(** Modelled from the spec: [NewFuncStack] lives beside [FuncStack] in the
    file that is not at hand.  The wrapper is constructed from a callable plus
    a capture depth used only for diagnostics; a callback that is not a
    callable is a configuration error raised at once. *)
Definition NewFuncStack (f : GoValue) (frameSkip : nat) : outcome FuncStack :=
  match f with
  | VFunc fn => Ok (mkFuncStack fn frameSkip)
  | _ => Panic "closure value is not a func"
  end.

End closure.

(** ** The signal association table *)

(** Modelled from the spec: the bidirectional table between signal handles
    and closure identities.  The source keeps it only inside a comment of
    [closure.go] ([signalClosures], [closureSignals], [RegisterSignal],
    [DisconnectSignal]); no live statement reads or writes it.  [Associate]
    records both directions; [Dissociate] removes both directions and does
    nothing when the handle is absent. *)
Record SignalTable : Type := mkSignalTable {
  signalClosures : gmap N N;
  closureSignals : gmap N N
}.

Definition Associate (handle : SignalHandle) (identity : Pointer)
  (t : SignalTable) : SignalTable :=
  mkSignalTable (<[handle := identity]> (signalClosures t))
                (<[identity := handle]> (closureSignals t)).

Definition Dissociate (handle : SignalHandle) (t : SignalTable) : SignalTable :=
  match signalClosures t !! handle with
  | Some identity =>
      mkSignalTable (delete handle (signalClosures t))
                    (delete identity (closureSignals t))
  | None => t
  end.

(** The two maps mirror each other. *)
Definition consistent (t : SignalTable) : Prop :=
  ∀ h i, signalClosures t !! h = Some i ↔ closureSignals t !! i = Some h.

Definition consistentb (t : SignalTable) : bool :=
  forallb (λ hi, bool_decide (closureSignals t !! hi.2 = Some hi.1))
          (map_to_list (signalClosures t))
  && forallb (λ ih, bool_decide (signalClosures t !! ih.2 = Some ih.1))
             (map_to_list (closureSignals t)).

(** ** The world the connector runs in *)

(** The two trampolines handed to GLib: [C.goMarshal] and [C.removeClosure]. *)
Inductive Trampoline : Type := C_goMarshal | C_removeClosure.

(** The effects of the connector, in program order: the calls into C with
    what they returned, and the store into the object's registry. *)
Inductive Step : Type :=
| C_CString (s : string)
| C_free
| C_g_closure_new_simple (ret : Pointer)
| Closures_Register (obj gclosure : Pointer) (fs : PFuncStack)
| C_g_closure_set_meta_marshal (gclosure data : Pointer) (t : Trampoline)
| C_g_closure_add_finalize_notifier (gclosure data : Pointer) (t : Trampoline)
| C_g_signal_connect_closure (obj : Pointer) (sig : string)
    (gclosure : Pointer) (after : bool) (ret : N).

(** [boxes] holds [box.Closures] of every object, keyed by the address of
    its [GObject]; [signals] is the association table; [steps] is the log. *)
Record World : Type := mkWorld {
  boxes : gmap N closure.Registry;
  signals : SignalTable;
  steps : list Step
}.

(** The part of [Object] that the connector reads. *)
Record Object : Type := mkObject {
  GObject : Pointer
}.

(** [v.box.Closures] *)
Definition Closures (w : World) (obj : Pointer) : closure.Registry :=
  default closure.NewRegistry (boxes w !! obj).

(** Stateful Go code that may panic. *)
Definition M (A : Type) : Type := World → outcome A * World.

#[global] Instance M_ret : MRet M := λ A a w, (Ok a, w).

#[global] Instance M_bind : MBind M := λ A B k m w,
  match m w with
  | (Ok a, w') => k a w'
  | (Panic msg, w') => (Panic msg, w')
  end.

Definition lift {A : Type} (o : outcome A) : M A := λ w, (o, w).

Definition log (s : Step) : M unit := λ w,
  (Ok tt, mkWorld (boxes w) (signals w) (steps w ++ [s])).

(** [defer cleanup; body]: the cleanup runs when the body returns or panics. *)
Definition defer {A : Type} (cleanup : M unit) (body : M A) : M A := λ w,
  let '(r, w') := body w in
  (r, (cleanup w').2).

(** Modelled from the spec: [FuncStack.Panicf] is declared with [FuncStack];
    it raises the failure with the formatted message. *)
Definition Panicf {A : Type} (fs : FuncStack) (msg : string) : M A :=
  lift (Panic msg).

(** [v.box.Closures.Register(unsafe.Pointer(gclosure), fs)] *)
Definition box_Closures_Register (v : Object) (gclosure : Pointer)
  (fs : PFuncStack) : M unit := λ w,
  (Ok tt,
   mkWorld (<[GObject v := closure.Register (Closures w (GObject v)) gclosure fs]>
              (boxes w))
           (signals w)
           (steps w ++ [Closures_Register (GObject v) gclosure fs])).

(** ** package intern *)

Module intern.

(** Modelled from the spec: [intern.RemoveClosure] is in a package that is
    not at hand.  It is the body of the finalize trampoline: delete the
    registry entry of the identity, then, if a signal association exists for
    this identity, dissociate the corresponding handle. *)
Definition RemoveClosure (obj gclosure : Pointer) : M unit := λ w,
  let boxes' :=
    match boxes w !! obj with
    | Some r => <[obj := closure.Delete r gclosure]> (boxes w)
    | None => boxes w
    end in
  let signals' :=
    match closureSignals (signals w) !! gclosure with
    | Some handle => Dissociate handle (signals w)
    | None => signals w
    end in
  (Ok tt, mkWorld boxes' signals' (steps w)).

End intern.

(** ** The signal connector *)

Section Connector.

(** What lies outside the repository: the address that
    [g_closure_new_simple] returns and the handler id that
    [g_signal_connect_closure] returns, each after the calls made so far;
    [Object.goValue] (with its error as [None]), [reflect.TypeOf] and
    [reflect.Type.ConvertibleTo]. *)
Variable closure_new_simple_ret : list Step → Pointer.
Variable signal_connect_closure_ret : list Step → N.
Variable goValue : Object → option GoValue.
Variable TypeOf : GoValue → GoType.
Variable ConvertibleTo : GoType → GoType → bool.

Definition g_closure_new_simple : M Pointer := λ w,
  let p := closure_new_simple_ret (steps w) in
  (Ok p, mkWorld (boxes w) (signals w) (steps w ++ [C_g_closure_new_simple p])).

Definition g_signal_connect_closure (obj : Pointer) (sig : string)
  (gclosure : Pointer) (after : bool) : M N := λ w,
  let c := signal_connect_closure_ret (steps w) in
  (Ok c, mkWorld (boxes w) (signals w)
           (steps w ++ [C_g_signal_connect_closure obj sig gclosure after c])).

(** [ClosureNew] creates a new GClosure bound to the object and adds its
    callback to the registry of the object. *)
Definition ClosureNew (v : Object) (f : GoValue) : M Pointer :=
  fs ← match f with
       | VFuncStack fs => mret fs
       | _ => fs ← lift (closure.NewFuncStack f 2); mret (Some fs)
       end;
  gclosure ← g_closure_new_simple;
  box_Closures_Register v gclosure fs;;
  log (C_g_closure_set_meta_marshal gclosure (GObject v) C_goMarshal);;
  log (C_g_closure_add_finalize_notifier gclosure (GObject v) C_removeClosure);;
  mret gclosure.

(** The block guarded by [ClosureCheckReceiver]. *)
Definition checkReceiver (v : Object) (fs : FuncStack) : M unit :=
  match goValue v with
  | Some objValue =>
      let fsType := Func fs in
      (if (NumIn fsType <? 1)%nat
       then Panicf fs
         "callback should have the object receiver to avoid circular references"
       else mret tt);;
      let objType := TypeOf objValue in
      match In_ fsType !! 0%nat with
      | Some first =>
          if negb (ConvertibleTo objType first)
          then Panicf fs ("receiver not convertible to expected type "
                          ++ objType ++ ", got " ++ first)
          else mret tt
      | None => lift (Panic "reflect: Func index out of bounds")
      end
  | None => mret tt
  end.

(** [connectClosure], with the constant [ClosureCheckReceiver] as its first
    argument: the constant "can be changed by using go.mod's replace
    directive for debugging purposes". *)
Definition connectClosureWith (ClosureCheckReceiver : bool) (v : Object)
  (after : bool) (detailedSignal : string) (f : GoValue) : M SignalHandle :=
  fs ← lift (closure.NewFuncStack f 2);
  (if ClosureCheckReceiver then checkReceiver v fs else mret tt);;
  log (C_CString detailedSignal);;
  defer (log C_free)
    (gclosure ← ClosureNew v (VFuncStack (Some fs));
     c ← g_signal_connect_closure (GObject v) detailedSignal gclosure after;
     mret c).

(** [const ClosureCheckReceiver = false] *)
Definition ClosureCheckReceiver : bool := false.

Definition connectClosure : Object → bool → string → GoValue → M SignalHandle :=
  connectClosureWith ClosureCheckReceiver.

Definition Connect (v : Object) (detailedSignal : string) (f : GoValue)
  : M SignalHandle :=
  connectClosure v false detailedSignal f.

Definition ConnectAfter (v : Object) (detailedSignal : string) (f : GoValue)
  : M SignalHandle :=
  connectClosure v true detailedSignal f.

(** The steps of [ClosureNew] for the closure address [g]. *)
Definition ClosureNew_steps (obj g : N) (fs : option FuncStack) : list Step :=
  [C_g_closure_new_simple g;
   Closures_Register obj g fs;
   C_g_closure_set_meta_marshal g obj C_goMarshal;
   C_g_closure_add_finalize_notifier g obj C_removeClosure].

(** The handle and the world that a connect leaves when it runs past the
    receiver check, written out step by step for the statements below. *)
Definition connected (v : Object) (after : bool) (sig : string)
  (fs : FuncStack) (w : World) : N * World :=
  let obj := GObject v in
  let g := closure_new_simple_ret (steps w ++ [C_CString sig])%list in
  let s := (steps w ++ C_CString sig :: ClosureNew_steps obj g (Some fs))%list in
  let c := signal_connect_closure_ret s in
  (c,
   mkWorld (<[obj := closure.Register (Closures w obj) g (Some fs)]> (boxes w))
           (signals w)
           (s ++ [C_g_signal_connect_closure obj sig g after c; C_free])%list).

End Connector.

(** [removeClosure], the finalize trampoline exported to C. *)
Definition removeClosure (obj gclosure : Pointer) : M unit :=
  intern.RemoveClosure obj gclosure.

(** ** The marshal trampoline *)

(** What one emission does with a closure: nothing, a call of the callable
    with converted arguments, or a failure handed to the failure channel of
    the host while the emission itself returns. *)
Inductive Emission : Type :=
| Skipped
| Called (fn : FuncValue) (args : list GoValue)
| Reported (failure : string).

Definition arity_error : string := "arity mismatch: too many closure args".

Section Marshal.

(** The conversion of one native value to a parameter type, owned by the
    marshaling tables outside the core. *)
Variable convert : GoType → N → option GoValue.

Definition convert_all (tys : list GoType) (values : list N)
  : option (list GoValue) :=
  mapM (λ p : GoType * N, convert p.1 p.2) (zip tys values).

(** Modelled from the spec: [goMarshal] is in a file of package [glib] that
    is not at hand.  The trampoline loads the wrapper from the registry of the
    object; absent means skip; otherwise the native argument sequence is
    truncated to the parameters the callable declares and converted, missing
    required arguments being a failure; no failure crosses into the native
    runtime. *)
Definition goMarshal (obj gclosure : Pointer) (params : list N) : M Emission :=
  λ w,
  match closure.Load (Closures w obj) gclosure with
  | None => (Ok Skipped, w)
  | Some fs =>
      let n := NumIn (Func fs) in
      if (length params <? n)%nat then (Ok (Reported arity_error), w)
      else
        match convert_all (In_ (Func fs)) (take n params) with
        | Some args => (Ok (Called (Func fs) args), w)
        | None => (Ok (Reported "argument not convertible"), w)
        end
  end.

End Marshal.

(** ** Sample values *)

Definition fsA : FuncStack := mkFuncStack (mkFuncValue ["*gtk.Button"] 1) 2.
Definition fsB : FuncStack := mkFuncStack (mkFuncValue [] 2) 2.

(** Sample answers of GLib: an address and a handler id that depend on the
    number of calls made so far. *)
Definition sample_addr (tr : list Step) : N := 4096 + 64 * N.of_nat (length tr).
Definition sample_id (tr : list Step) : N := 1 + N.of_nat (length tr).

Definition sample_goValue (v : Object) : option GoValue :=
  Some (VOther "*gtk.Button").

Definition sample_TypeOf (x : GoValue) : GoType :=
  match x with
  | VFunc _ => "func"
  | VFuncStack _ => "*closure.FuncStack"
  | VOther ty => ty
  end.

Definition empty_world : World := mkWorld ∅ (mkSignalTable ∅ ∅) [].

Definition button : Object := mkObject 1000.

(** A callback whose receiver is a label, and a world in which a connect on
    [button] has been followed by the association of its handle. *)
Definition on_label : GoValue := VFunc (mkFuncValue ["*gtk.Label"] 3).

Definition sample_convert (ty : GoType) (x : N) : option GoValue :=
  Some (VOther ty).

Definition associated_world : World :=
  mkWorld {[ 1000%N := closure.Register closure.NewRegistry 4160 (Some fsA) ]}
          (Associate 6 4160 (mkSignalTable ∅ ∅))
          [].

Definition fsC : FuncStack :=
  mkFuncStack (mkFuncValue ["*gtk.Button"; "int"; "string"] 4) 2.

Definition emitting_world : World :=
  mkWorld {[ 1000%N := closure.Register
                         (closure.Register closure.NewRegistry 4160 (Some fsA))
                         4224 (Some fsC) ]}
          (mkSignalTable ∅ ∅)
          [].

(** ** Measures on the log *)

Definition is_CString (s : Step) : bool :=
  match s with C_CString _ => true | _ => false end.

Definition is_free (s : Step) : bool :=
  match s with C_free => true | _ => false end.

Definition count_steps (p : Step → bool) (l : list Step) : nat :=
  length (List.filter p l).

(** A step with the ordering flag of a signal connect replaced. *)
Definition set_after (b : bool) (s : Step) : Step :=
  match s with
  | C_g_signal_connect_closure obj sig g _ ret =>
      C_g_signal_connect_closure obj sig g b ret
  | _ => s
  end.

(** A runtime whose [g_signal_connect_closure] refuses every connect: it
    answers the handler id 0. *)
Definition refusing_id (tr : list Step) : N := 0.

(** An allocator that hands out one address again and again. *)
Definition reusing_addr (tr : list Step) : N := 4160.

(** An allocator that hands out an address no sample world uses. *)
Definition fresh_addr (tr : list Step) : N := 8192.

Definition failing_goValue (v : Object) : option GoValue := None.

Definition on_button_click : GoValue :=
  VFunc (mkFuncValue ["*gtk.Button"; "int"] 5).

(** ** Properties of the registry *)

Section RegistryFacts.
Import closure.
Implicit Types (r : Registry) (i j : N) (w : option FuncStack).

Lemma Load_Register_eq r i w : Load (Register r i w) i = w.
Proof. unfold Load, Register; simpl. by rewrite lookup_insert_eq. Qed.

Lemma Load_Register_ne r i j w : i ≠ j → Load (Register r i w) j = Load r j.
Proof. intros Hne. unfold Load, Register; simpl. by rewrite lookup_insert_ne. Qed.

Lemma Load_Delete_eq r i : Load (Delete r i) i = None.
Proof. unfold Load, Delete; simpl. by rewrite lookup_delete_eq. Qed.

Lemma Load_Delete_ne r i j : i ≠ j → Load (Delete r i) j = Load r j.
Proof. intros Hne. unfold Load, Delete; simpl. by rewrite lookup_delete_ne. Qed.

Lemma Load_run_op_leaves r i op :
  writes i op = false → Load (run_op r op) i = Load r i.
Proof.
  destruct op as [g cb | g | g]; simpl; intros Hw; try done.
  - apply Load_Register_ne. by apply N.eqb_neq.
  - apply Load_Delete_ne. by apply N.eqb_neq.
Qed.

Lemma Load_run_ops_leaves ops : ∀ r i,
  leaves i ops = true → Load (run_ops ops r) i = Load r i.
Proof.
  induction ops as [| op ops IH]; intros r i Hl; simpl in *; [done |].
  apply andb_true_iff in Hl as [Hop Hrest].
  apply negb_true_iff in Hop.
  unfold run_ops in IH. rewrite IH by done.
  by apply Load_run_op_leaves.
Qed.

Lemma Delete_absent r i : reg r !! i = None → Delete r i = r.
Proof.
  intros Hn. destruct r as [m]; unfold Delete; simpl in *.
  f_equal. by apply delete_id.
Qed.

Lemma Delete_Delete r i : Delete (Delete r i) i = Delete r i.
Proof. apply Delete_absent. simpl. apply lookup_delete_eq. Qed.

End RegistryFacts.

Section SignalTableFacts.
Implicit Types (t : SignalTable) (h i : N).

Lemma Dissociate_absent t h :
  signalClosures t !! h = None → Dissociate h t = t.
Proof. intros Hn. unfold Dissociate. by rewrite Hn. Qed.

Lemma Dissociate_forgets t h : signalClosures (Dissociate h t) !! h = None.
Proof.
  unfold Dissociate. destruct (signalClosures t !! h) as [i |] eqn:E; simpl.
  - apply lookup_delete_eq.
  - exact E.
Qed.

Lemma Dissociate_Dissociate t h : Dissociate h (Dissociate h t) = Dissociate h t.
Proof. apply Dissociate_absent, Dissociate_forgets. Qed.

Lemma consistentb_sound t : consistentb t = true → consistent t.
Proof.
  unfold consistentb, consistent. intros Hb h i.
  apply andb_true_iff in Hb as [Hf Hg].
  rewrite forallb_forall in Hf. rewrite forallb_forall in Hg.
  split; intros Hl.
  - specialize (Hf (h, i)). simpl in Hf.
    rewrite bool_decide_eq_true in Hf. apply Hf.
    apply list_elem_of_In. by apply elem_of_map_to_list.
  - specialize (Hg (i, h)). simpl in Hg.
    rewrite bool_decide_eq_true in Hg. apply Hg.
    apply list_elem_of_In. by apply elem_of_map_to_list.
Qed.

Lemma Dissociate_consistent t h : consistent t → consistent (Dissociate h t).
Proof.
  intros Hc. unfold Dissociate.
  destruct (signalClosures t !! h) as [i |] eqn:E; [| done].
  intros h' i'; simpl. rewrite !lookup_delete_Some.
  split.
  - intros [Hne Hl]. split; [| by apply Hc].
    intros ->. apply Hc in Hl. apply Hc in E. congruence.
  - intros [Hne Hl]. split; [| by apply Hc].
    intros ->. apply Hc in Hl. congruence.
Qed.

End SignalTableFacts.

(** ** The registry: round trip, idempotence, overwriting *)

(** C1.  Registry round-trip: after [Register(i, w)], and any calls that are
    neither a [Register] nor a [Delete] of [i], [Load(i)] returns [w]; after
    [Delete(i)], and any further such calls, [Load(i)] returns nil. *)
Theorem Register_Load_Delete_roundtrip (r : closure.Registry) (i : N)
  (w : option FuncStack) (ops ops' : list closure.RegOp) :
  closure.leaves i ops = true →
  closure.leaves i ops' = true →
  let r1 := closure.run_ops ops (closure.Register r i w) in
  closure.Load r1 i = w
  ∧ closure.Load (closure.run_ops ops' (closure.Delete r1 i)) i = None.
Proof.
  intros Hops Hops' r1. subst r1. split.
  - rewrite Load_run_ops_leaves by done. apply Load_Register_eq.
  - rewrite Load_run_ops_leaves by done. apply Load_Delete_eq.
Qed.

Lemma Register_Load_Delete_roundtrip_witness :
  let ops := [closure.OpRegister 8192 (Some fsB); closure.OpLoad 4096;
              closure.OpDelete 8192] in
  let r1 := closure.run_ops ops
              (closure.Register closure.NewRegistry 4096 (Some fsA)) in
  closure.leaves 4096 ops = true
  ∧ closure.Load r1 4096 = Some fsA
  ∧ closure.Load (closure.run_ops ops (closure.Delete r1 4096)) 4096 = None.
Proof.
  intros ops r1. split; [reflexivity |].
  apply (Register_Load_Delete_roundtrip closure.NewRegistry 4096 (Some fsA)
           ops ops); reflexivity.
Defined.

(** C4.  [Delete] is idempotent, deleting an identity that is not live
    leaves the registry as it was (and cannot fail: [Delete] is total), and
    [Dissociate] is idempotent. *)
Theorem Delete_Dissociate_idempotent (r : closure.Registry) (i : N)
  (t : SignalTable) (h : N) :
  closure.Delete (closure.Delete r i) i = closure.Delete r i
  ∧ (closure.live r i = false → closure.Delete r i = r)
  ∧ Dissociate h (Dissociate h t) = Dissociate h t.
Proof.
  split; [apply Delete_Delete |]. split; [| apply Dissociate_Dissociate].
  unfold closure.live. intros Hl. rewrite bool_decide_eq_false in Hl.
  apply Delete_absent. by apply eq_None_not_Some.
Qed.

Lemma Delete_Dissociate_idempotent_witness :
  let r := closure.Register closure.NewRegistry 4096 (Some fsA) in
  closure.live r 8192 = false ∧ closure.Delete r 8192 = r.
Proof.
  intros r. split; [reflexivity |].
  apply (Delete_Dissociate_idempotent r 8192 (mkSignalTable ∅ ∅) 7).
  reflexivity.
Defined.

(** C5, as the spec states it, fails: registering under a live identity
    raises nothing and replaces the wrapper that was there. *)
Lemma Register_live_counterexample :
  let r := closure.Register closure.NewRegistry 4096 (Some fsA) in
  closure.live r 4096 = true
  ∧ closure.Load r 4096 = Some fsA
  ∧ closure.Load (closure.Register r 4096 (Some fsB)) 4096 = Some fsB
  ∧ Some fsB ≠ closure.Load r 4096.
Proof. intros r. repeat split; try reflexivity. discriminate. Qed.

(** C5, amended.  [Register(i, w)] stores [w] under [i] also when [i] is
    live: the earlier wrapper is replaced, [i] stays live, and every other
    identity keeps its entry. *)
Theorem Register_live_overwrites (r : closure.Registry) (i : N)
  (w : option FuncStack) :
  closure.live r i = true →
  closure.Load (closure.Register r i w) i = w
  ∧ closure.live (closure.Register r i w) i = true
  ∧ closure.Delete (closure.Register r i w) i = closure.Delete r i.
Proof.
  intros _. split; [apply Load_Register_eq |]. split.
  - unfold closure.live, closure.Register; simpl.
    rewrite bool_decide_eq_true, lookup_insert_eq. by eexists.
  - unfold closure.Delete, closure.Register; simpl.
    f_equal. apply delete_insert_eq.
Qed.

Lemma Register_live_overwrites_witness :
  let r := closure.Register closure.NewRegistry 4096 (Some fsA) in
  closure.live r 4096 = true
  ∧ closure.Load (closure.Register r 4096 (Some fsB)) 4096 = Some fsB.
Proof.
  intros r. split; [reflexivity |].
  apply (Register_live_overwrites r 4096 (Some fsB)). reflexivity.
Defined.

(** ** The connector *)

Section ConnectorFacts.
Variable closure_new_simple_ret : list Step → N.
Variable signal_connect_closure_ret : list Step → N.

Lemma ClosureNew_FuncStack_run (v : Object) (fs : option FuncStack) (w : World) :
  let g := closure_new_simple_ret (steps w) in
  ClosureNew closure_new_simple_ret v (VFuncStack fs) w =
  (Ok g,
   mkWorld (<[GObject v := closure.Register (Closures w (GObject v)) g fs]>
              (boxes w))
           (signals w)
           (steps w ++ ClosureNew_steps (GObject v) g fs)).
Proof.
  unfold ClosureNew, g_closure_new_simple, box_Closures_Register, log,
    mbind, M_bind, mret, M_ret, ClosureNew_steps, Closures; simpl.
  by rewrite <- !app_assoc.
Qed.

Lemma connectClosureWith_false_run goValue TypeOf ConvertibleTo
  (v : Object) (after : bool) (sig : string) (f : GoValue) (fs : FuncStack)
  (w : World) :
  closure.NewFuncStack f 2 = Ok fs →
  connectClosureWith closure_new_simple_ret signal_connect_closure_ret
    goValue TypeOf ConvertibleTo false v after sig f w =
  (Ok (connected closure_new_simple_ret signal_connect_closure_ret
         v after sig fs w).1,
   (connected closure_new_simple_ret signal_connect_closure_ret
      v after sig fs w).2).
Proof.
  intros Hf.
  unfold connectClosureWith, defer.
  unfold mbind at 1 2 3, M_bind, lift. rewrite Hf. simpl.
  unfold connected, ClosureNew_steps, Closures; simpl.
  by rewrite <- !app_assoc.
Qed.

Lemma connectClosure_run goValue TypeOf ConvertibleTo
  (v : Object) (after : bool) (sig : string) (f : GoValue) (fs : FuncStack)
  (w : World) :
  closure.NewFuncStack f 2 = Ok fs →
  connectClosure closure_new_simple_ret signal_connect_closure_ret
    goValue TypeOf ConvertibleTo v after sig f w =
  (Ok (connected closure_new_simple_ret signal_connect_closure_ret
         v after sig fs w).1,
   (connected closure_new_simple_ret signal_connect_closure_ret
      v after sig fs w).2).
Proof. apply connectClosureWith_false_run. Qed.

Lemma connectClosureWith_not_func check goValue TypeOf ConvertibleTo
  (v : Object) (after : bool) (sig : string) (f : GoValue) (msg : string)
  (w : World) :
  closure.NewFuncStack f 2 = Panic msg →
  connectClosureWith closure_new_simple_ret signal_connect_closure_ret
    goValue TypeOf ConvertibleTo check v after sig f w = (Panic msg, w).
Proof.
  intros Hf. unfold connectClosureWith.
  unfold mbind at 1, M_bind, lift. by rewrite Hf.
Qed.

(** C2, amended.  A connect of a callable registers the wrapper in the
    registry of the connecting object under the identity of the new closure
    and hands that closure to [g_signal_connect_closure], whose handler id
    it returns; the association table is left as it was. *)
Theorem connectClosure_registers_only goValue TypeOf ConvertibleTo
  (v : Object) (after : bool) (sig : string) (f : GoValue) (fs : FuncStack)
  (w : World) :
  closure.NewFuncStack f 2 = Ok fs →
  let i := closure_new_simple_ret (steps w ++ [C_CString sig])%list in
  ∃ h w',
    connectClosure closure_new_simple_ret signal_connect_closure_ret
      goValue TypeOf ConvertibleTo v after sig f w = (Ok h, w')
    ∧ closure.Load (Closures w' (GObject v)) i = Some fs
    ∧ C_g_signal_connect_closure (GObject v) sig i after h ∈ steps w'
    ∧ signals w' = signals w.
Proof.
  intros Hf i. eexists _, _. split; [by apply connectClosure_run |].
  unfold connected, Closures; simpl. split; [| split; [| done]].
  - rewrite lookup_insert_eq. simpl. apply Load_Register_eq.
  - rewrite !elem_of_app. right. apply list_elem_of_here.
Qed.

(** C6.  With the receiver check switched on, a callback whose first
    parameter is missing, or is a type the object's type is not convertible
    to, makes the connect panic with the world as it was: no closure has
    been created, no registry holds a new entry, no association is made. *)
Theorem connectClosure_strict_fails_clean goValue TypeOf ConvertibleTo
  (v : Object) (after : bool) (sig : string) (f : GoValue) (fs : FuncStack)
  (objValue : GoValue) (w : World) :
  closure.NewFuncStack f 2 = Ok fs →
  goValue v = Some objValue →
  match In_ (Func fs) !! 0%nat with
  | Some first => ConvertibleTo (TypeOf objValue) first
  | None => false
  end = false →
  ∃ msg,
    connectClosureWith closure_new_simple_ret signal_connect_closure_ret
      goValue TypeOf ConvertibleTo true v after sig f w = (Panic msg, w).
Proof.
  intros Hf Hgo Hbad. unfold connectClosureWith.
  unfold mbind at 1, M_bind, lift. rewrite Hf.
  unfold mbind at 1 2, M_bind, checkReceiver. rewrite Hgo.
  unfold NumIn.
  destruct (In_ (Func fs)) as [| first rest] eqn:E; simpl in *.
  - by eexists.
  - rewrite Hbad. simpl. by eexists.
Qed.

(** C7.  [ClosureNew] allocates the closure, stores the wrapper under the
    address of the closure in the registry of the object it is called on,
    then installs [goMarshal] as the meta-marshal and [removeClosure] as the
    finalize notifier; in [connectClosure] the call of
    [g_signal_connect_closure] comes after all of these.  Afterwards [Load]
    of the new address in the registry of that object returns the wrapper,
    the address is live there, and [Load] of any other address, or in the
    registry of any other object, returns what it returned before; after
    [connectClosure] the wrapper built from the callback is loaded under the
    address of its closure. *)
Theorem ClosureNew_steps_in_order goValue TypeOf ConvertibleTo
  (v : Object) (fs : option FuncStack) (fn : FuncValue) (after : bool)
  (sig : string) (w : World) (o j : N) :
  let obj := GObject v in
  let g := closure_new_simple_ret (steps w) in
  let g' := closure_new_simple_ret (steps w ++ [C_CString sig])%list in
  let c := (connected closure_new_simple_ret signal_connect_closure_ret
              v after sig (mkFuncStack fn 2) w).1 in
  let w1 := (ClosureNew closure_new_simple_ret v (VFuncStack fs) w).2 in
  let w2 := (connectClosure closure_new_simple_ret signal_connect_closure_ret
               goValue TypeOf ConvertibleTo v after sig (VFunc fn) w).2 in
  ClosureNew closure_new_simple_ret v (VFuncStack fs) w =
    (Ok g,
     mkWorld (<[obj := closure.Register (Closures w obj) g fs]> (boxes w))
             (signals w)
             (steps w ++
              [C_g_closure_new_simple g;
               Closures_Register obj g fs;
               C_g_closure_set_meta_marshal g obj C_goMarshal;
               C_g_closure_add_finalize_notifier g obj C_removeClosure]))
  ∧ ClosureNew closure_new_simple_ret v (VFunc fn) w =
    ClosureNew closure_new_simple_ret v (VFuncStack (Some (mkFuncStack fn 2))) w
  ∧ steps w2 =
    (steps w ++
     [C_CString sig;
      C_g_closure_new_simple g';
      Closures_Register obj g' (Some (mkFuncStack fn 2));
      C_g_closure_set_meta_marshal g' obj C_goMarshal;
      C_g_closure_add_finalize_notifier g' obj C_removeClosure;
      C_g_signal_connect_closure obj sig g' after c;
      C_free])%list
  ∧ closure.Load (Closures w1 obj) g = fs
  ∧ closure.live (Closures w1 obj) g = true
  ∧ closure.Load (Closures w1 o) j =
    (if N.eqb o obj && N.eqb j g then fs else closure.Load (Closures w o) j)
  ∧ closure.Load (Closures w2 obj) g' = Some (mkFuncStack fn 2)
  ∧ closure.Load (Closures w2 o) j =
    (if N.eqb o obj && N.eqb j g' then Some (mkFuncStack fn 2)
     else closure.Load (Closures w o) j).
Proof.
  intros obj g g' c w1 w2.
  assert (∀ (a : N) (x : option FuncStack) (sg : SignalTable)
            (st : list Step) (o' j' : N),
            closure.Load
              (Closures
                 (mkWorld
                    (<[obj := closure.Register (Closures w obj) a x]> (boxes w))
                    sg st) o') j'
            = if N.eqb o' obj && N.eqb j' a then x
              else closure.Load (Closures w o') j') as Hload.
  { intros a x sg st o' j'. unfold Closures at 1; simpl.
    destruct (N.eqb_spec o' obj) as [-> | Ho]; simpl.
    - rewrite lookup_insert_eq; simpl.
      destruct (N.eqb_spec j' a) as [-> | Hj].
      + apply Load_Register_eq.
      + by apply Load_Register_ne.
    - by rewrite lookup_insert_ne. }
  split; [apply ClosureNew_FuncStack_run |]. split; [reflexivity |].
  subst w1 w2.
  rewrite (connectClosure_run _ _ _ _ _ _ _ (mkFuncStack fn 2)) by done.
  rewrite ClosureNew_FuncStack_run. fold g.
  unfold connected; simpl. fold obj g'.
  split; [subst c; unfold connected, ClosureNew_steps; simpl;
          by rewrite <- app_assoc |].
  rewrite !Hload, !N.eqb_refl; simpl.
  split; [done |]. split; [| done].
  unfold closure.live, Closures, closure.Register; simpl.
  rewrite lookup_insert_eq; simpl.
  rewrite bool_decide_eq_true, lookup_insert_eq. by eexists.
Qed.

(** C9.  [ClosureCheckReceiver] is [false]: [connectClosure] does not
    consult the type of the object or of the first parameter of the callback
    (its result is the same whatever [goValue], [TypeOf] and [ConvertibleTo]
    answer), and a connect of a func returns a handle whatever the parameter
    list of the func is. *)
Theorem connectClosure_never_checks_receiver goValue TypeOf ConvertibleTo
  goValue' TypeOf' ConvertibleTo'
  (v : Object) (after : bool) (sig : string) (f : GoValue) (fn : FuncValue)
  (w : World) :
  ClosureCheckReceiver = false
  ∧ connectClosure closure_new_simple_ret signal_connect_closure_ret
      goValue TypeOf ConvertibleTo v after sig f w =
    connectClosure closure_new_simple_ret signal_connect_closure_ret
      goValue' TypeOf' ConvertibleTo' v after sig f w
  ∧ ∃ h w',
      connectClosure closure_new_simple_ret signal_connect_closure_ret
        goValue TypeOf ConvertibleTo v after sig (VFunc fn) w = (Ok h, w').
Proof.
  split; [reflexivity |]. split.
  - destruct (closure.NewFuncStack f 2) as [fs | msg] eqn:Hf.
    + by rewrite !(connectClosure_run _ _ _ _ _ _ _ fs).
    + unfold connectClosure.
      by rewrite !(connectClosureWith_not_func _ _ _ _ _ _ _ _ msg).
  - eexists _, _. by apply connectClosure_run.
Qed.

End ConnectorFacts.

Lemma connectClosure_registers_only_witness :
  closure.NewFuncStack (VFunc (Func fsA)) 2 = Ok fsA
  ∧ ∃ h w',
      connectClosure sample_addr sample_id sample_goValue sample_TypeOf
        String.eqb button false "clicked" (VFunc (Func fsA)) empty_world
      = (Ok h, w')
      ∧ closure.Load (Closures w' 1000) 4160 = Some fsA
      ∧ C_g_signal_connect_closure 1000 "clicked" 4160 false h ∈ steps w'
      ∧ signals w' = signals empty_world.
Proof.
  split; [reflexivity |].
  apply (connectClosure_registers_only sample_addr sample_id sample_goValue
           sample_TypeOf String.eqb button false "clicked" (VFunc (Func fsA))
           fsA empty_world).
  reflexivity.
Defined.

(** C2, as the spec states it, fails: a connect that succeeds with handle 6
    for the closure at 4160 leaves both maps of the association table
    without an entry, while the registry holds the wrapper. *)
Lemma Connect_associates_counterexample :
  let r := Connect sample_addr sample_id sample_goValue sample_TypeOf
             String.eqb button "clicked" (VFunc (Func fsA)) empty_world in
  r.1 = Ok 6%N
  ∧ C_g_signal_connect_closure 1000 "clicked" 4160 false 6 ∈ steps r.2
  ∧ closure.Load (Closures r.2 1000) 4160 = Some fsA
  ∧ signalClosures (signals r.2) !! 6%N = None
  ∧ closureSignals (signals r.2) !! 4160%N = None.
Proof.
  intros r. subst r. unfold Connect.
  rewrite (connectClosure_run _ _ _ _ _ _ _ _ _ fsA) by reflexivity.
  repeat split; try reflexivity.
  vm_compute. do 5 apply list_elem_of_further. apply list_elem_of_here.
Qed.

Lemma connectClosure_strict_fails_clean_witness :
  closure.NewFuncStack on_label 2 = Ok (mkFuncStack (mkFuncValue ["*gtk.Label"] 3) 2)
  ∧ sample_goValue button = Some (VOther "*gtk.Button")
  ∧ String.eqb "*gtk.Button" "*gtk.Label" = false
  ∧ ∃ msg,
      connectClosureWith sample_addr sample_id sample_goValue sample_TypeOf
        String.eqb true button false "clicked" on_label empty_world
      = (Panic msg, empty_world).
Proof.
  do 3 (split; [reflexivity |]).
  apply (connectClosure_strict_fails_clean sample_addr sample_id
           sample_goValue sample_TypeOf String.eqb button false "clicked"
           on_label (mkFuncStack (mkFuncValue ["*gtk.Label"] 3) 2)
           (VOther "*gtk.Button") empty_world); reflexivity.
Defined.

(** ** The finalize trampoline *)

(** C3.  When the closure at [i] is destroyed, [removeClosure] deletes the
    registry entry of [i] in the box of the object and dissociates the handle
    that was associated with [i]: afterwards [Load(i)] is nil, [i] has no
    handle, no handle leads to [i], and the table still mirrors itself. *)
Theorem removeClosure_clears (obj i : N) (w : World) :
  consistentb (signals w) = true →
  let w' := (removeClosure obj i w).2 in
  (removeClosure obj i w).1 = Ok tt
  ∧ closure.Load (Closures w' obj) i = None
  ∧ closureSignals (signals w') !! i = None
  ∧ (∀ h, signalClosures (signals w') !! h ≠ Some i)
  ∧ consistent (signals w').
Proof.
  intros Hc%consistentb_sound w'. subst w'.
  unfold removeClosure, intern.RemoveClosure; simpl.
  split; [done |]. split.
  { unfold Closures; simpl.
    destruct (boxes w !! obj) as [r |] eqn:E.
    - rewrite lookup_insert_eq. simpl. apply Load_Delete_eq.
    - by rewrite E. }
  destruct (closureSignals (signals w) !! i) as [h |] eqn:E.
  - pose proof (proj2 (Hc h i) E) as Hh.
    unfold Dissociate. rewrite Hh. simpl.
    split; [apply lookup_delete_eq |]. split.
    + intros h'. rewrite lookup_delete_Some. intros [Hne Hl].
      apply Hc in Hl. congruence.
    + pose proof (Dissociate_consistent _ h Hc) as Hd.
      unfold Dissociate in Hd. by rewrite Hh in Hd.
  - split; [done |]. split; [| done].
    intros h Hl. apply Hc in Hl. congruence.
Qed.

Lemma removeClosure_clears_witness :
  consistentb (signals associated_world) = true
  ∧ closure.Load (Closures associated_world 1000) 4160 = Some fsA
  ∧ closureSignals (signals associated_world) !! 4160%N = Some 6%N
  ∧ closure.Load (Closures (removeClosure 1000 4160 associated_world).2 1000)
      4160 = None
  ∧ closureSignals (signals (removeClosure 1000 4160 associated_world).2)
      !! 4160%N = None.
Proof.
  do 3 (split; [reflexivity |]).
  pose proof (removeClosure_clears 1000 4160 associated_world) as H.
  specialize (H ltac:(reflexivity)).
  split; [apply H | apply H].
Defined.

(** ** The marshal trampoline *)

(** C8.  When the emission supplies more values than the callable declares
    parameters, the values beyond the declared count play no part (the
    emission goes as with the truncated sequence, and the callable is called
    with exactly as many arguments as it declares); when it supplies fewer,
    the trampoline returns with an arity failure reported, the world as it
    was. *)
Theorem goMarshal_relaxed_arity (convert : string → N → option GoValue)
  (obj i : N) (fs : FuncStack) (params : list N) (w : World) :
  closure.Load (Closures w obj) i = Some fs →
  let n := NumIn (Func fs) in
  (n < length params →
   goMarshal convert obj i params w = goMarshal convert obj i (take n params) w
   ∧ ∀ args,
       convert_all convert (In_ (Func fs)) (take n params) = Some args →
       goMarshal convert obj i params w = (Ok (Called (Func fs) args), w)
       ∧ length args = n)
  ∧ (length params < n →
     goMarshal convert obj i params w = (Ok (Reported arity_error), w)).
Proof.
  intros Hl n. unfold goMarshal. rewrite Hl. fold n. split.
  - intros Hlt.
    assert ((length params <? n)%nat = false) as -> by (apply Nat.ltb_ge; lia).
    rewrite take_idemp, length_take_le by lia.
    rewrite Nat.ltb_irrefl. split; [done |].
    intros args Hargs. rewrite Hargs. split; [done |].
    unfold convert_all in Hargs. apply length_mapM in Hargs.
    rewrite length_zip, length_take_le in Hargs by lia.
    subst n. unfold NumIn in *. lia.
  - intros Hlt.
    by assert ((length params <? n)%nat = true) as -> by (apply Nat.ltb_lt; lia).
Qed.

Lemma goMarshal_relaxed_arity_witness :
  closure.Load (Closures emitting_world 1000) 4160 = Some fsA
  ∧ closure.Load (Closures emitting_world 1000) 4224 = Some fsC
  ∧ goMarshal sample_convert 1000 4160 [10; 20; 30]%N emitting_world
    = (Ok (Called (Func fsA) [VOther "*gtk.Button"]), emitting_world)
  ∧ goMarshal sample_convert 1000 4224 [10]%N emitting_world
    = (Ok (Reported arity_error), emitting_world).
Proof.
  do 2 (split; [reflexivity |]). split.
  - destruct (goMarshal_relaxed_arity sample_convert 1000 4160 fsA
                [10; 20; 30]%N emitting_world eq_refl) as [Hextra _].
    destruct (Hextra ltac:(vm_compute; lia)) as [_ Hcall].
    apply (Hcall [VOther "*gtk.Button"] eq_refl).
  - destruct (goMarshal_relaxed_arity sample_convert 1000 4224 fsC
                [10]%N emitting_world eq_refl) as [_ Hmissing].
    apply Hmissing. vm_compute; lia.
Defined.

(** ** More on the registry *)

(** X1.  [Load] returns only what was registered: if, after a history of
    calls, [Load(i)] returns a wrapper, then the registry held it under [i]
    before the history or the history registers it under [i]. *)
Theorem Load_only_registered (ops : list closure.RegOp) :
  ∀ (r : closure.Registry) (i : N) (fs : FuncStack),
  closure.Load (closure.run_ops ops r) i = Some fs →
  closure.Load r i = Some fs ∨ closure.OpRegister i (Some fs) ∈ ops.
Proof.
  induction ops as [| op ops IH]; intros r i fs Hl; [by left |].
  apply IH in Hl as [Hl | Hin]; [| right; by apply list_elem_of_further].
  destruct op as [g cb | g | g]; simpl in Hl.
  - destruct (decide (g = i)) as [-> | Hne].
    + rewrite Load_Register_eq in Hl. subst cb. right. apply list_elem_of_here.
    + rewrite Load_Register_ne in Hl by done. by left.
  - by left.
  - destruct (decide (g = i)) as [-> | Hne].
    + by rewrite Load_Delete_eq in Hl.
    + rewrite Load_Delete_ne in Hl by done. by left.
Qed.

Lemma Load_only_registered_witness :
  let ops := [closure.OpDelete 4160; closure.OpRegister 4160 (Some fsB);
              closure.OpLoad 4160] in
  closure.Load (closure.run_ops ops closure.NewRegistry) 4160 = Some fsB
  ∧ (closure.Load closure.NewRegistry 4160 = Some fsB
     ∨ closure.OpRegister 4160 (Some fsB) ∈ ops).
Proof.
  intros ops. split; [reflexivity |].
  apply (Load_only_registered ops closure.NewRegistry 4160 fsB). reflexivity.
Defined.

(** X2.  A nil callback can be registered: the identity is then live, yet
    [Load] answers nil for it exactly as for an identity that was deleted. *)
Theorem Register_nil_loads_as_absent (r : closure.Registry) (i : N) :
  closure.Load (closure.Register r i None) i
  = closure.Load (closure.Delete r i) i
  ∧ closure.live (closure.Register r i None) i = true
  ∧ closure.live (closure.Delete r i) i = false.
Proof.
  rewrite Load_Register_eq, Load_Delete_eq. split; [done |].
  unfold closure.live, closure.Register, closure.Delete; simpl. split.
  - rewrite bool_decide_eq_true, lookup_insert_eq. by eexists.
  - rewrite bool_decide_eq_false, lookup_delete_eq. by intros [? ?].
Qed.

(** X3.  Calls on distinct identities commute: two [Register]s, a [Register]
    and a [Delete], and two [Delete]s leave the same registry in either
    order. *)
Theorem Register_Delete_commute (r : closure.Registry) (i j : N)
  (w w' : option FuncStack) :
  i ≠ j →
  closure.Register (closure.Register r i w) j w'
  = closure.Register (closure.Register r j w') i w
  ∧ closure.Delete (closure.Register r j w') i
    = closure.Register (closure.Delete r i) j w'
  ∧ closure.Delete (closure.Delete r i) j
    = closure.Delete (closure.Delete r j) i.
Proof.
  intros Hne. unfold closure.Register, closure.Delete; simpl.
  split; [| split]; f_equal.
  - by apply insert_insert_ne.
  - by rewrite delete_insert_ne.
  - apply delete_delete.
Qed.

Lemma Register_Delete_commute_witness :
  4160%N ≠ 4224%N
  ∧ closure.Delete (closure.Register closure.NewRegistry 4224 (Some fsB)) 4160
    = closure.Register (closure.Delete closure.NewRegistry 4160) 4224 (Some fsB).
Proof.
  split; [done |].
  apply (Register_Delete_commute closure.NewRegistry 4160 4224 (Some fsA)
           (Some fsB)).
  done.
Defined.

(** X4.  Registering under an identity that is not live and deleting it
    again gives back the registry as it was. *)
Theorem Register_fresh_then_Delete (r : closure.Registry) (i : N)
  (w : option FuncStack) :
  closure.live r i = false →
  closure.Delete (closure.Register r i w) i = r.
Proof.
  unfold closure.live. rewrite bool_decide_eq_false. intros Hn.
  destruct r as [m]. unfold closure.Delete, closure.Register; simpl in *.
  f_equal. rewrite delete_insert_eq. apply delete_id.
  by apply eq_None_not_Some.
Qed.

Lemma Register_fresh_then_Delete_witness :
  let r := closure.Register closure.NewRegistry 4160 (Some fsA) in
  closure.live r 4224 = false
  ∧ closure.Delete (closure.Register r 4224 (Some fsB)) 4224 = r.
Proof.
  intros r. split; [reflexivity |].
  apply (Register_fresh_then_Delete r 4224 (Some fsB)). reflexivity.
Defined.

(** ** More on the connector *)

Section ConnectorPaths.
Variable closure_new_simple_ret : list Step → N.
Variable signal_connect_closure_ret : list Step → N.
Variable goValue : Object → option GoValue.
Variable TypeOf : GoValue → string.
Variable ConvertibleTo : string → string → bool.

Lemma checkReceiver_cases (v : Object) (fs : FuncStack) (w : World) :
  checkReceiver goValue TypeOf ConvertibleTo v fs w = (Ok tt, w)
  ∨ ∃ msg, checkReceiver goValue TypeOf ConvertibleTo v fs w = (Panic msg, w).
Proof.
  unfold checkReceiver. destruct (goValue v) as [objValue |]; [| by left].
  unfold NumIn, mbind, M_bind.
  destruct (In_ (Func fs)) as [| first rest]; simpl.
  - right. by eexists.
  - destruct (ConvertibleTo (TypeOf objValue) first); simpl.
    + by left.
    + right. by eexists.
Qed.

Lemma connectClosureWith_check_passes (v : Object) (after : bool)
  (sig : string) (f : GoValue) (fs : FuncStack) (w : World) :
  closure.NewFuncStack f 2 = Ok fs →
  checkReceiver goValue TypeOf ConvertibleTo v fs w = (Ok tt, w) →
  connectClosureWith closure_new_simple_ret signal_connect_closure_ret
    goValue TypeOf ConvertibleTo true v after sig f w =
  connectClosureWith closure_new_simple_ret signal_connect_closure_ret
    goValue TypeOf ConvertibleTo false v after sig f w.
Proof.
  intros Hf Hc. unfold connectClosureWith.
  unfold mbind at 1 5, M_bind, lift. rewrite Hf.
  unfold mbind at 1 5, M_bind. by rewrite Hc.
Qed.

Lemma connectClosureWith_check_panics (v : Object) (after : bool)
  (sig : string) (f : GoValue) (fs : FuncStack) (msg : string) (w : World) :
  closure.NewFuncStack f 2 = Ok fs →
  checkReceiver goValue TypeOf ConvertibleTo v fs w = (Panic msg, w) →
  connectClosureWith closure_new_simple_ret signal_connect_closure_ret
    goValue TypeOf ConvertibleTo true v after sig f w = (Panic msg, w).
Proof.
  intros Hf Hc. unfold connectClosureWith.
  unfold mbind at 1, M_bind, lift. rewrite Hf.
  unfold mbind at 1, M_bind. by rewrite Hc.
Qed.

(** Every run of [connectClosureWith] either leaves the world as it was
    (with a panic) or is the run written out in [connected]. *)
Lemma connectClosureWith_paths (check : bool) (v : Object) (after : bool)
  (sig : string) (f : GoValue) (w : World) :
  (∃ msg,
     connectClosureWith closure_new_simple_ret signal_connect_closure_ret
       goValue TypeOf ConvertibleTo check v after sig f w = (Panic msg, w))
  ∨ (∃ fs,
       closure.NewFuncStack f 2 = Ok fs
       ∧ connectClosureWith closure_new_simple_ret signal_connect_closure_ret
           goValue TypeOf ConvertibleTo check v after sig f w =
         (Ok (connected closure_new_simple_ret signal_connect_closure_ret
                v after sig fs w).1,
          (connected closure_new_simple_ret signal_connect_closure_ret
             v after sig fs w).2)).
Proof.
  destruct (closure.NewFuncStack f 2) as [fs | msg] eqn:Hf.
  - destruct check.
    + destruct (checkReceiver_cases v fs w) as [Hc | [msg Hc]].
      * right. exists fs. split; [done |].
        rewrite (connectClosureWith_check_passes _ _ _ _ fs) by done.
        by apply connectClosureWith_false_run.
      * left. exists msg. by apply (connectClosureWith_check_panics _ _ _ _ fs).
    + right. exists fs. split; [done |]. by apply connectClosureWith_false_run.
  - left. exists msg. by apply connectClosureWith_not_func.
Qed.

End ConnectorPaths.

Section ConnectorExtras.
Variable closure_new_simple_ret : list Step → N.
Variable signal_connect_closure_ret : list Step → N.
Variable goValue : Object → option GoValue.
Variable TypeOf : GoValue → string.
Variable ConvertibleTo : string → string → bool.

(** X5.  [ConnectAfter] differs from [Connect] only in the ordering flag it
    hands to [g_signal_connect_closure]: same result, same boxes, same
    table, and the steps added are those of [Connect] with the flag set. *)
Theorem ConnectAfter_differs_in_flag_only (v : Object) (sig : string)
  (f : GoValue) (w : World) :
  let r := Connect closure_new_simple_ret signal_connect_closure_ret
             goValue TypeOf ConvertibleTo v sig f w in
  let r' := ConnectAfter closure_new_simple_ret signal_connect_closure_ret
              goValue TypeOf ConvertibleTo v sig f w in
  r'.1 = r.1 ∧ boxes r'.2 = boxes r.2 ∧ signals r'.2 = signals r.2
  ∧ ∃ added, steps r.2 = (steps w ++ added)%list
             ∧ set_after false <$> added = added
             ∧ steps r'.2 = (steps w ++ (set_after true <$> added))%list.
Proof.
  intros r r'. subst r r'. unfold Connect, ConnectAfter.
  destruct (closure.NewFuncStack f 2) as [fs | msg] eqn:Hf.
  - rewrite !(connectClosure_run _ _ _ _ _ _ _ _ _ fs) by done.
    unfold connected; simpl. rewrite <- !app_assoc. repeat split.
    eexists. split; [reflexivity |]. by split.
  - unfold connectClosure.
    rewrite !(connectClosureWith_not_func _ _ _ _ _ _ _ _ _ _ msg) by done.
    repeat split. exists []. simpl. rewrite app_nil_r. by repeat split.
Qed.

(** X6.  On every path, with the receiver check on or off, the steps that
    [connectClosure] adds hold as many [C.free] as [C.CString]: the C string
    of the signal name is freed whenever it was made, and the [C.free] is
    the last step. *)
Theorem connectClosure_frees_its_CString (check : bool) (v : Object)
  (after : bool) (sig : string) (f : GoValue) (w : World) :
  let w' := (connectClosureWith closure_new_simple_ret
               signal_connect_closure_ret goValue TypeOf ConvertibleTo
               check v after sig f w).2 in
  ∃ added, steps w' = (steps w ++ added)%list
           ∧ count_steps is_CString added = count_steps is_free added
           ∧ (added = [] ∨ last added = Some C_free).
Proof.
  intros w'. subst w'.
  destruct (connectClosureWith_paths closure_new_simple_ret
              signal_connect_closure_ret goValue TypeOf ConvertibleTo
              check v after sig f w) as [[msg ->] | [fs [_ ->]]]; simpl.
  - exists []. rewrite app_nil_r. repeat split. by left.
  - eexists. rewrite <- app_assoc. split; [reflexivity |]. split; [done |].
    by right.
Qed.

(** X7.  On every path [connectClosure] leaves the box of every other
    object, every other identity in the box of its own object, and the
    association table as they were. *)
Theorem connectClosure_frame (check : bool) (v : Object) (after : bool)
  (sig : string) (f : GoValue) (w : World) :
  let w' := (connectClosureWith closure_new_simple_ret
               signal_connect_closure_ret goValue TypeOf ConvertibleTo
               check v after sig f w).2 in
  let g := closure_new_simple_ret (steps w ++ [C_CString sig])%list in
  (∀ obj, obj ≠ GObject v → boxes w' !! obj = boxes w !! obj)
  ∧ (∀ j, j ≠ g →
       closure.Load (Closures w' (GObject v)) j
       = closure.Load (Closures w (GObject v)) j)
  ∧ signals w' = signals w.
Proof.
  intros w' g. subst w'.
  destruct (connectClosureWith_paths closure_new_simple_ret
              signal_connect_closure_ret goValue TypeOf ConvertibleTo
              check v after sig f w) as [[msg ->] | [fs [_ ->]]]; simpl.
  - done.
  - split; [| split; [| done]].
    + intros obj Hne. by rewrite lookup_insert_ne.
    + intros j Hne. unfold Closures at 1; simpl.
      rewrite lookup_insert_eq; simpl. by apply Load_Register_ne.
Qed.

(** X8.  Two connects on one object: the second wrapper is registered under
    the second address, and the first wrapper is still registered under the
    first address unless the allocator handed out the same address again, in
    which case the second wrapper has taken its place. *)
Theorem connectClosure_twice (v : Object) (after1 after2 : bool)
  (sig1 sig2 : string) (f1 f2 : GoValue) (fs1 fs2 : FuncStack) (w : World) :
  closure.NewFuncStack f1 2 = Ok fs1 →
  closure.NewFuncStack f2 2 = Ok fs2 →
  let w1 := (connectClosure closure_new_simple_ret signal_connect_closure_ret
               goValue TypeOf ConvertibleTo v after1 sig1 f1 w).2 in
  let w2 := (connectClosure closure_new_simple_ret signal_connect_closure_ret
               goValue TypeOf ConvertibleTo v after2 sig2 f2 w1).2 in
  let g1 := closure_new_simple_ret (steps w ++ [C_CString sig1])%list in
  let g2 := closure_new_simple_ret (steps w1 ++ [C_CString sig2])%list in
  closure.Load (Closures w2 (GObject v)) g2 = Some fs2
  ∧ closure.Load (Closures w2 (GObject v)) g1
    = (if N.eqb g1 g2 then Some fs2 else Some fs1).
Proof.
  intros Hf1 Hf2 w1 w2 g1 g2.
  assert (closure.Load (Closures w1 (GObject v)) g1 = Some fs1) as H1.
  { subst w1 g1. rewrite (connectClosure_run _ _ _ _ _ _ _ _ _ fs1) by done.
    unfold connected, Closures; simpl.
    rewrite lookup_insert_eq; simpl. apply Load_Register_eq. }
  assert (∀ j, closure.Load (Closures w2 (GObject v)) j
               = if N.eqb j g2 then Some fs2
                 else closure.Load (Closures w1 (GObject v)) j) as H2.
  { intros j. subst w2 g2.
    rewrite (connectClosure_run _ _ _ _ _ _ _ _ _ fs2) by done.
    unfold connected; simpl. unfold Closures at 1; simpl.
    rewrite lookup_insert_eq; simpl.
    destruct (N.eqb_spec j
                (closure_new_simple_ret (steps w1 ++ [C_CString sig2])))
      as [-> | Hne].
    - apply Load_Register_eq.
    - by apply Load_Register_ne. }
  split.
  - rewrite H2. by rewrite N.eqb_refl.
  - rewrite H2. by destruct (N.eqb g1 g2).
Qed.

(** X9.  The handler id is not inspected: when [g_signal_connect_closure]
    answers 0, the connect returns 0 like any other handle and the wrapper
    stays registered under the address of the closure. *)
Theorem connectClosure_zero_handle (v : Object) (after : bool) (sig : string)
  (f : GoValue) (fs : FuncStack) (w : World) :
  closure.NewFuncStack f 2 = Ok fs →
  let g := closure_new_simple_ret (steps w ++ [C_CString sig])%list in
  signal_connect_closure_ret
    (steps w ++ C_CString sig :: ClosureNew_steps (GObject v) g (Some fs))%list
  = 0%N →
  let r := connectClosure closure_new_simple_ret signal_connect_closure_ret
             goValue TypeOf ConvertibleTo v after sig f w in
  r.1 = Ok 0%N
  ∧ closure.Load (Closures r.2 (GObject v)) g = Some fs
  ∧ closure.live (Closures r.2 (GObject v)) g = true.
Proof.
  intros Hf g Hzero r. subst r.
  rewrite (connectClosure_run _ _ _ _ _ _ _ _ _ fs) by done.
  unfold connected; simpl. fold g. rewrite Hzero. split; [done |].
  unfold Closures; simpl. rewrite lookup_insert_eq; simpl.
  split; [apply Load_Register_eq |].
  unfold closure.live, closure.Register; simpl.
  rewrite bool_decide_eq_true, lookup_insert_eq. by eexists.
Qed.

(** X10.  With the receiver check on, an object whose Go value cannot be
    obtained is connected unchecked: the run is the run with the check off,
    whatever the parameters of the callback. *)
Theorem connectClosure_strict_skips_on_goValue_error (v : Object)
  (after : bool) (sig : string) (f : GoValue) (w : World) :
  goValue v = None →
  connectClosureWith closure_new_simple_ret signal_connect_closure_ret
    goValue TypeOf ConvertibleTo true v after sig f w =
  connectClosureWith closure_new_simple_ret signal_connect_closure_ret
    goValue TypeOf ConvertibleTo false v after sig f w.
Proof.
  intros Hgo. destruct (closure.NewFuncStack f 2) as [fs | msg] eqn:Hf.
  - apply (connectClosureWith_check_passes _ _ _ _ _ _ _ _ _ fs); [done |].
    unfold checkReceiver. by rewrite Hgo.
  - by rewrite !(connectClosureWith_not_func _ _ _ _ _ _ _ _ _ _ msg).
Qed.

(** X11.  With the receiver check on, only the first parameter of the
    callback is looked at: when the type of the object is convertible to it,
    the run is the run with the check off, whatever the other parameters. *)
Theorem connectClosure_strict_accepts_receiver (v : Object) (after : bool)
  (sig : string) (f : GoValue) (fs : FuncStack) (objValue : GoValue)
  (first : string) (rest : list string) (w : World) :
  closure.NewFuncStack f 2 = Ok fs →
  goValue v = Some objValue →
  In_ (Func fs) = first :: rest →
  ConvertibleTo (TypeOf objValue) first = true →
  connectClosureWith closure_new_simple_ret signal_connect_closure_ret
    goValue TypeOf ConvertibleTo true v after sig f w =
  connectClosureWith closure_new_simple_ret signal_connect_closure_ret
    goValue TypeOf ConvertibleTo false v after sig f w.
Proof.
  intros Hf Hgo Hin Hconv.
  apply (connectClosureWith_check_passes _ _ _ _ _ _ _ _ _ fs); [done |].
  unfold checkReceiver, NumIn, mbind, M_bind. rewrite Hgo, Hin. simpl.
  by rewrite Hconv.
Qed.

(** X12.  [ClosureNew] given a nil pointer to a [FuncStack] takes it as it
    is: the closure is created and both trampolines are installed, the
    address is live in the registry, and [Load] answers nil for it. *)
Theorem ClosureNew_nil_FuncStack (v : Object) (w : World) :
  let r := ClosureNew closure_new_simple_ret v (VFuncStack None) w in
  let g := closure_new_simple_ret (steps w) in
  r.1 = Ok g
  ∧ closure.live (Closures r.2 (GObject v)) g = true
  ∧ closure.Load (Closures r.2 (GObject v)) g = None
  ∧ steps r.2 = (steps w ++ ClosureNew_steps (GObject v) g None)%list.
Proof.
  intros r g. subst r. rewrite ClosureNew_FuncStack_run. fold g. simpl.
  split; [done |]. unfold Closures; simpl. rewrite lookup_insert_eq; simpl.
  split; [| split; [apply Load_Register_eq | done]].
  unfold closure.live, closure.Register; simpl.
  rewrite bool_decide_eq_true, lookup_insert_eq. by eexists.
Qed.

(** X13.  A connect whose closure got an address that was not live in the
    registry of the object, followed by [Delete] of that address, gives back
    the registry as it was before the connect. *)
Theorem connectClosure_then_Delete (v : Object) (after : bool) (sig : string)
  (f : GoValue) (fs : FuncStack) (w : World) :
  closure.NewFuncStack f 2 = Ok fs →
  let g := closure_new_simple_ret (steps w ++ [C_CString sig])%list in
  closure.live (Closures w (GObject v)) g = false →
  let w' := (connectClosure closure_new_simple_ret signal_connect_closure_ret
               goValue TypeOf ConvertibleTo v after sig f w).2 in
  closure.Delete (Closures w' (GObject v)) g = Closures w (GObject v).
Proof.
  intros Hf g Hfresh w'. subst w'.
  rewrite (connectClosure_run _ _ _ _ _ _ _ _ _ fs) by done.
  unfold connected; simpl. unfold Closures at 1; simpl.
  rewrite lookup_insert_eq; simpl. fold g.
  unfold closure.live in Hfresh. rewrite bool_decide_eq_false in Hfresh.
  destruct (Closures w (GObject v)) as [m].
  unfold closure.Delete, closure.Register; simpl in *.
  f_equal. rewrite delete_insert_eq. apply delete_id.
  by apply eq_None_not_Some.
Qed.

End ConnectorExtras.

Lemma connectClosure_frame_witness :
  let w' := (connectClosureWith sample_addr sample_id sample_goValue
               sample_TypeOf String.eqb true button false "clicked"
               on_button_click emitting_world).2 in
  2000%N ≠ GObject button
  ∧ 4224%N ≠ sample_addr (steps emitting_world ++ [C_CString "clicked"])
  ∧ boxes w' !! 2000%N = boxes emitting_world !! 2000%N
  ∧ closure.Load (Closures w' (GObject button)) 4224
    = closure.Load (Closures emitting_world (GObject button)) 4224.
Proof.
  intros w'. split; [done |]. split; [done |].
  destruct (connectClosure_frame sample_addr sample_id sample_goValue
              sample_TypeOf String.eqb true button false "clicked"
              on_button_click emitting_world) as (Hboxes & Hload & _).
  split; [by apply Hboxes | by apply Hload].
Defined.

Lemma connectClosure_twice_witness :
  closure.NewFuncStack (VFunc (Func fsA)) 2 = Ok fsA
  ∧ closure.NewFuncStack (VFunc (Func fsC)) 2 = Ok fsC
  ∧ (let w1 := (connectClosure sample_addr sample_id sample_goValue
                  sample_TypeOf String.eqb button false "clicked"
                  (VFunc (Func fsA)) empty_world).2 in
     let w2 := (connectClosure sample_addr sample_id sample_goValue
                  sample_TypeOf String.eqb button true "notify"
                  (VFunc (Func fsC)) w1).2 in
     closure.Load (Closures w2 1000) 4608 = Some fsC
     ∧ closure.Load (Closures w2 1000) 4160 = Some fsA)
  ∧ (let w1 := (connectClosure reusing_addr sample_id sample_goValue
                  sample_TypeOf String.eqb button false "clicked"
                  (VFunc (Func fsA)) empty_world).2 in
     let w2 := (connectClosure reusing_addr sample_id sample_goValue
                  sample_TypeOf String.eqb button true "notify"
                  (VFunc (Func fsC)) w1).2 in
     closure.Load (Closures w2 1000) 4160 = Some fsC).
Proof.
  split; [reflexivity |]. split; [reflexivity |]. split.
  - exact (connectClosure_twice sample_addr sample_id sample_goValue
             sample_TypeOf String.eqb button false true "clicked" "notify"
             (VFunc (Func fsA)) (VFunc (Func fsC)) fsA fsC empty_world
             eq_refl eq_refl).
  - exact (proj2 (connectClosure_twice reusing_addr sample_id sample_goValue
             sample_TypeOf String.eqb button false true "clicked" "notify"
             (VFunc (Func fsA)) (VFunc (Func fsC)) fsA fsC empty_world
             eq_refl eq_refl)).
Defined.

Lemma connectClosure_zero_handle_witness :
  closure.NewFuncStack (VFunc (Func fsA)) 2 = Ok fsA
  ∧ refusing_id
      (steps empty_world ++
       C_CString "no-such-signal" :: ClosureNew_steps 1000 4160 (Some fsA))
    = 0%N
  ∧ (let r := connectClosure sample_addr refusing_id sample_goValue
                sample_TypeOf String.eqb button false "no-such-signal"
                (VFunc (Func fsA)) empty_world in
     r.1 = Ok 0%N
     ∧ closure.Load (Closures r.2 1000) 4160 = Some fsA
     ∧ closure.live (Closures r.2 1000) 4160 = true).
Proof.
  split; [reflexivity |]. split; [reflexivity |].
  apply (connectClosure_zero_handle sample_addr refusing_id sample_goValue
           sample_TypeOf String.eqb button false "no-such-signal"
           (VFunc (Func fsA)) fsA empty_world); reflexivity.
Defined.

Lemma connectClosure_strict_skips_on_goValue_error_witness :
  failing_goValue button = None
  ∧ connectClosureWith sample_addr sample_id failing_goValue sample_TypeOf
      String.eqb true button false "clicked" on_label empty_world
    = connectClosureWith sample_addr sample_id failing_goValue sample_TypeOf
        String.eqb false button false "clicked" on_label empty_world.
Proof.
  split; [reflexivity |].
  apply (connectClosure_strict_skips_on_goValue_error sample_addr sample_id
           failing_goValue sample_TypeOf String.eqb button false "clicked"
           on_label empty_world).
  reflexivity.
Defined.

Lemma connectClosure_strict_accepts_receiver_witness :
  closure.NewFuncStack on_button_click 2
  = Ok (mkFuncStack (mkFuncValue ["*gtk.Button"; "int"] 5) 2)
  ∧ sample_goValue button = Some (VOther "*gtk.Button")
  ∧ String.eqb (sample_TypeOf (VOther "*gtk.Button")) "*gtk.Button" = true
  ∧ connectClosureWith sample_addr sample_id sample_goValue sample_TypeOf
      String.eqb true button false "clicked" on_button_click empty_world
    = connectClosureWith sample_addr sample_id sample_goValue sample_TypeOf
        String.eqb false button false "clicked" on_button_click empty_world.
Proof.
  do 3 (split; [reflexivity |]).
  apply (connectClosure_strict_accepts_receiver sample_addr sample_id
           sample_goValue sample_TypeOf String.eqb button false "clicked"
           on_button_click (mkFuncStack (mkFuncValue ["*gtk.Button"; "int"] 5) 2)
           (VOther "*gtk.Button") "*gtk.Button" ["int"] empty_world);
    reflexivity.
Defined.

Lemma connectClosure_then_Delete_witness :
  closure.NewFuncStack (VFunc (Func fsB)) 2 = Ok fsB
  ∧ closure.live (Closures emitting_world 1000)
      (fresh_addr (steps emitting_world ++ [C_CString "clicked"])) = false
  ∧ closure.Delete
      (Closures (connectClosure fresh_addr sample_id sample_goValue
                   sample_TypeOf String.eqb button false "clicked"
                   (VFunc (Func fsB)) emitting_world).2 1000)
      (fresh_addr (steps emitting_world ++ [C_CString "clicked"]))
    = Closures emitting_world 1000.
Proof.
  split; [reflexivity |]. split; [reflexivity |].
  apply (connectClosure_then_Delete fresh_addr sample_id sample_goValue
           sample_TypeOf String.eqb button false "clicked"
           (VFunc (Func fsB)) fsB emitting_world); reflexivity.
Defined.
